(** * The VirtualBox VM node of the GNS3 GUI

    A shallow embedding of [gns3/modules/virtualbox/virtualbox_vm.py]:
    the class [VirtualBoxVM], its settings dictionary, its port list and
    the methods [__init__], [_addAdapters], [create], [_createCallback],
    [update], [_updateCallback], [info] and [serialConsole].

    Python objects are mutable and methods may raise: a method is a
    function from the node to an outcome and the node it leaves behind
    (the attributes assigned before an exception stay assigned). *)

From Stdlib Require Import ZArith List Lia Ascii.
From stdpp Require Import base strings gmap list pretty fin_maps.

Open Scope Z_scope.

(** ** Python values *)

(** The values that settings take: they come from the settings table
    and from the server's JSON answers. *)
Inductive pyval :=
| PNone
| PBool (b : bool)
| PInt (z : Z)
| PStr (s : string).

#[global] Instance pyval_eq_dec : EqDecision pyval.
Proof. solve_decision. Defined.

(** [bool] is a subclass of [int]: [True] is 1 and [False] is 0 wherever
    an integer is expected ([range], [==]). *)
Definition as_int (v : pyval) : option Z :=
  match v with
  | PInt z => Some z
  | PBool b => Some (if b then 1 else 0)
  | PNone | PStr _ => None
  end.

(** [a == b]: numbers compare by value (so [True == 1]), strings and
    [None] with themselves only. *)
Definition py_eq (a b : pyval) : bool :=
  match as_int a, as_int b with
  | Some x, Some y => bool_decide (x = y)
  | None, None => bool_decide (a = b)
  | _, _ => false
  end.

(** [a != b] *)
Definition py_ne (a b : pyval) : bool := negb (py_eq a b).

(** Truth value of an object, as [if v:] tests it. *)
Definition truthy (v : pyval) : bool :=
  match v with
  | PNone => false
  | PBool b => b
  | PInt z => negb (z =? 0)
  | PStr s => negb (bool_decide (s = ""))
  end.

(** [str(v)], as [str.format] renders a [{field}]. *)
Definition py_str (v : pyval) : string :=
  match v with
  | PNone => "None"
  | PBool true => "True"
  | PBool false => "False"
  | PInt z => pretty z
  | PStr s => s
  end.

(** [range(0, n)]: empty when [n <= 0]. *)
Definition py_range (n : Z) : list Z := map Z.of_nat (seq 0 (Z.to_nat n)).

(** ** Outcomes and the method monad *)

Inductive exn := TypeError | KeyError | IndexError | ValueError | NotModelled.

Inductive res (A : Type) :=
| Ok (a : A)
| Raise (e : exn).
Arguments Ok {A} a.
Arguments Raise {A} e.

(** ** Ports *)

(** Modelled from the spec: the class [EthernetPort] (gns3/ports) is not
    part of the source.  A port is what this file reads and writes of it:
    its name, the adapter and port numbers set on it, and the link state
    that [isFree] and [description] report. *)
Record Port := mkPort {
  port_name : string;
  port_adapter_number : option Z;
  port_port_number : option Z;
  port_isFree : bool;
  port_description : string
}.

#[global] Instance Port_eq_dec : EqDecision Port.
Proof. solve_decision. Defined.

(** [EthernetPort(name)]: a fresh port, unnumbered and without a link. *)
Definition EthernetPort (name : string) : Port :=
  mkPort name None None true "".

Definition setAdapterNumber (n : Z) (p : Port) : Port :=
  mkPort (port_name p) (Some n) (port_port_number p) (port_isFree p) (port_description p).

Definition setPortNumber (n : Z) (p : Port) : Port :=
  mkPort (port_name p) (port_adapter_number p) (Some n) (port_isFree p) (port_description p).

(** ** The node *)

(** [Node.started] and the other states [status()] answers. *)
Inductive node_status := stopped | started | suspended.

#[global] Instance node_status_eq_dec : EqDecision node_status.
Proof. solve_decision. Defined.

(** What this class hands to the base class [Node] for the server:
    [_create(name, node_id, params, default_name_format)] and
    [_update(params)].  The base class is not part of the source; the
    calls are recorded in the order they are made. *)
Inductive request :=
| CreateRequest (name : string) (node_id : pyval)
                (params : gmap string pyval) (default_name_format : option string)
| UpdateRequest (params : gmap string pyval).

Record Node := mkNode {
  (* attributes of VirtualBoxVM *)
  _linked_clone : bool;
  _port_name_format : string;
  _port_segment_size : Z;
  _first_port_name : option string;
  (* attributes kept by the base class *)
  _settings : gmap string pyval;
  _ports : list Port;
  _node_id : pyval;
  node_name : string;            (* self.name() *)
  node_id : Z;                   (* self.id() *)
  node_status_of : node_status;  (* self.status() *)
  compute_id : string;           (* self.compute().id() *)
  dispatched : list request      (* calls of _create and _update so far *)
}.

Definition M (A : Type) : Type := Node -> res A * Node.

Definition ret {A} (a : A) : M A := fun st => (Ok a, st).

Definition raise {A} (e : exn) : M A := fun st => (Raise e, st).

Definition bind {A B} (m : M A) (k : A -> M B) : M B :=
  fun st =>
    match m st with
    | (Ok a, st') => k a st'
    | (Raise e, st') => (Raise e, st')
    end.

Notation "x <- m ;; k" := (bind m (fun x => k))
  (at level 100, m at next level, right associativity).
Notation "m ;; k" := (bind m (fun _ => k))
  (at level 100, right associativity).

Definition get {A} (f : Node -> A) : M A := fun st => (Ok (f st), st).

Definition modify (f : Node -> Node) : M unit := fun st => (Ok tt, f st).

(** A value that an expression may fail to produce. *)
Definition lift {A} (r : res A) : M A := fun st => (r, st).

(** [for x in xs: acc = body(acc, x)] *)
Fixpoint for_each {A B} (body : B -> A -> M B) (acc : B) (xs : list A) : M B :=
  match xs with
  | [] => ret acc
  | x :: xs' => acc' <- body acc x ;; for_each body acc' xs'
  end.

(** Attribute assignments. *)
Definition set_linked_clone (b : bool) (st : Node) : Node :=
  mkNode b (_port_name_format st) (_port_segment_size st) (_first_port_name st)
         (_settings st) (_ports st) (_node_id st) (node_name st) (node_id st)
         (node_status_of st) (compute_id st) (dispatched st).

Definition set_port_name_format (f : string) (st : Node) : Node :=
  mkNode (_linked_clone st) f (_port_segment_size st) (_first_port_name st)
         (_settings st) (_ports st) (_node_id st) (node_name st) (node_id st)
         (node_status_of st) (compute_id st) (dispatched st).

Definition set_port_segment_size (n : Z) (st : Node) : Node :=
  mkNode (_linked_clone st) (_port_name_format st) n (_first_port_name st)
         (_settings st) (_ports st) (_node_id st) (node_name st) (node_id st)
         (node_status_of st) (compute_id st) (dispatched st).

Definition set_first_port_name (f : option string) (st : Node) : Node :=
  mkNode (_linked_clone st) (_port_name_format st) (_port_segment_size st) f
         (_settings st) (_ports st) (_node_id st) (node_name st) (node_id st)
         (node_status_of st) (compute_id st) (dispatched st).

Definition set_settings (s : gmap string pyval) (st : Node) : Node :=
  mkNode (_linked_clone st) (_port_name_format st) (_port_segment_size st)
         (_first_port_name st) s (_ports st) (_node_id st) (node_name st)
         (node_id st) (node_status_of st) (compute_id st) (dispatched st).

Definition set_ports (ps : list Port) (st : Node) : Node :=
  mkNode (_linked_clone st) (_port_name_format st) (_port_segment_size st)
         (_first_port_name st) (_settings st) ps (_node_id st) (node_name st)
         (node_id st) (node_status_of st) (compute_id st) (dispatched st).

Definition dispatch (r : request) (st : Node) : Node :=
  mkNode (_linked_clone st) (_port_name_format st) (_port_segment_size st)
         (_first_port_name st) (_settings st) (_ports st) (_node_id st)
         (node_name st) (node_id st) (node_status_of st) (compute_id st)
         (dispatched st ++ [r]).

(** [d[k]]: [KeyError] when the key is missing. *)
Definition subscript (d : gmap string pyval) (k : string) : res pyval :=
  match d !! k with
  | Some v => Ok v
  | None => Raise KeyError
  end.

(** [name in d and d[name] != value], the test both [update] and
    [_updateCallback] make on every item of the dictionary they are
    given. *)
Definition differs_from_stored (settings : gmap string pyval)
           (name : string) (value : pyval) : bool :=
  match settings !! name with
  | Some old => py_ne old value
  | None => false
  end.

(** Truth value of a port name that may be [None] or a string. *)
Definition name_is_set (name : option string) : bool :=
  match name with
  | Some s => negb (bool_decide (s = ""))
  | None => false
  end.

(** ** Port name formatting *)

(** [fmt.format(i, s, port0=i, port1=1+i, segment0=s, segment1=1+s)]:
    Python's [str.format] at the six arguments [_addAdapters] passes,
    which two integers determine.  It is a function of the standard
    library, taken as given; [format_fragment] below computes it on the
    format strings that the examples use. *)
Class PortNameFormat := str_format : string -> Z -> Z -> res string.

Section Methods.

Context {formatter : PortNameFormat}.

(** *** [_addAdapters] *)

(** One turn of the loop over [range(0, adapters)]; the pair is
    [(interface_number, segment_number)]. *)
Definition add_adapter (counters : Z * Z) (adapter_number : Z) : M (Z * Z) :=
  let '(interface_number, segment_number) := counters in
  first_port_name <- get _first_port_name ;;
  named <-
    (if name_is_set first_port_name && (adapter_number =? 0)
     then ret (default "" first_port_name, counters)
     else
       port_name_format <- get _port_name_format ;;
       port_name <- lift (str_format port_name_format interface_number segment_number) ;;
       let interface_number := interface_number + 1 in
       port_segment_size <- get _port_segment_size ;;
       if negb (port_segment_size =? 0) && (interface_number mod port_segment_size =? 0)
       then ret (port_name, (0, segment_number + 1))
       else ret (port_name, (interface_number, segment_number))) ;;
  let new_port := EthernetPort (fst named) in
  let new_port := setAdapterNumber adapter_number new_port in
  let new_port := setPortNumber 0 new_port in
  modify (fun st => set_ports (_ports st ++ [new_port]) st) ;;
  ret (snd named).

Definition _addAdapters (adapters : pyval) : M unit :=
  match as_int adapters with
  | None => raise TypeError
  | Some n => for_each add_adapter (0, 0) (py_range n) ;; ret tt
  end.

(** *** [__init__] *)

(** The body of the constructor after [super().__init__(...)]: it runs
    on the node as the base class built it.  [VBOX_VM_SETTINGS] is the
    table of [.settings], which is not part of the source. *)
Definition __init__ (VBOX_VM_SETTINGS : gmap string pyval) : M unit :=
  modify (set_linked_clone false) ;;
  modify (set_port_name_format "Ethernet{0}") ;;
  modify (set_port_segment_size 0) ;;
  modify (set_first_port_name None) ;;
  adapters <- lift (subscript VBOX_VM_SETTINGS "adapters") ;;
  use_any_adapter <- lift (subscript VBOX_VM_SETTINGS "use_any_adapter") ;;
  adapter_type <- lift (subscript VBOX_VM_SETTINGS "adapter_type") ;;
  ram <- lift (subscript VBOX_VM_SETTINGS "ram") ;;
  headless <- lift (subscript VBOX_VM_SETTINGS "headless") ;;
  acpi_shutdown <- lift (subscript VBOX_VM_SETTINGS "acpi_shutdown") ;;
  enable_remote_console <- lift (subscript VBOX_VM_SETTINGS "enable_remote_console") ;;
  let virtualbox_vm_settings : gmap string pyval :=
    list_to_map [("vmname", PStr "");
                 ("console", PNone);
                 ("console_host", PNone);
                 ("adapters", adapters);
                 ("use_any_adapter", use_any_adapter);
                 ("adapter_type", adapter_type);
                 ("ram", ram);
                 ("headless", headless);
                 ("acpi_shutdown", acpi_shutdown);
                 ("enable_remote_console", enable_remote_console)] in
  (* self.settings().update(virtualbox_vm_settings) *)
  modify (fun st => set_settings (virtualbox_vm_settings ∪ _settings st) st).

(** *** [create] and its callback *)

Definition create (vmname : string) (name : option string) (node_id : pyval)
           (port_name_format : string) (port_segment_size : Z)
           (first_port_name : option string) (linked_clone : bool)
           (additional_settings : gmap string pyval)
           (default_name_format : option string) : M unit :=
  let name := if name_is_set name then default "" name else vmname in
  modify (set_linked_clone linked_clone) ;;
  let params : gmap string pyval :=
    list_to_map [("vmname", PStr vmname); ("linked_clone", PBool linked_clone)] in
  modify (set_port_name_format port_name_format) ;;
  modify (set_port_segment_size port_segment_size) ;;
  modify (set_first_port_name first_port_name) ;;
  (* params.update(additional_settings) *)
  let params := additional_settings ∪ params in
  modify (dispatch (CreateRequest name node_id params default_name_format)).

Definition _createCallback (result : gmap string pyval) : M unit :=
  settings <- get _settings ;;
  _addAdapters (default (PInt 0) (settings !! "adapters")).

(** *** [update] and its callback *)

(** The loop of [update] over [new_settings.items()]. *)
Definition changed_params (settings new_settings : gmap string pyval)
  : gmap string pyval :=
  map_fold (fun name value params =>
              if differs_from_stored settings name value
              then <[name := value]> params else params)
           ∅ new_settings.

(** [update] writes into the dictionary it is given; the value returned
    here is that dictionary as the caller finds it afterwards. *)
Definition update (new_settings : gmap string pyval) : M (gmap string pyval) :=
  name <- get node_name ;;
  linked_clone <- get _linked_clone ;;
  let new_settings :=
    match new_settings !! "name" with
    | Some new_name =>
        if py_ne new_name (PStr name) && linked_clone
        then <["vmname" := new_name]> new_settings
        else new_settings
    | None => new_settings
    end in
  settings <- get _settings ;;
  let params := changed_params settings new_settings in
  (if bool_decide (params = ∅) then ret tt
   else modify (dispatch (UpdateRequest params))) ;;
  ret new_settings.

(** One turn of the loop of [_updateCallback]; the pair is
    [(self._settings, nb_adapters_changed)]. *)
Definition apply_item (name : string) (value : pyval)
           (acc : gmap string pyval * bool) : gmap string pyval * bool :=
  if differs_from_stored (fst acc) name value
  then (<[name := value]> (fst acc),
        if bool_decide (name = "adapters") then true else snd acc)
  else acc.

Definition _updateCallback (result : gmap string pyval) : M unit :=
  settings <- get _settings ;;
  let looped := map_fold apply_item (settings, false) result in
  modify (set_settings (fst looped)) ;;
  let nb_adapters_changed := snd looped in
  if nb_adapters_changed then
    modify (set_ports []) ;;
    settings <- get _settings ;;
    adapters <- lift (subscript settings "adapters") ;;
    _addAdapters adapters
  else ret tt.

End Methods.

(** *** [info] and [serialConsole] *)

(** The line feed that ends each line of [info]. *)
Definition LF : string := String (Ascii.ascii_of_nat 10) EmptyString.

(** The double quote around the VirtualBox name. *)
Definition QUOTE : string := String (Ascii.ascii_of_nat 34) EmptyString.

(** The line [info] writes for one port. *)
Definition port_line (port : Port) : string :=
  if port_isFree port
  then "     " +:+ port_name port +:+ " is empty" +:+ LF
  else "     " +:+ port_name port +:+ " " +:+ port_description port +:+ LF.

(** The first six lines of [info], for the state word and the values
    given to [format]. *)
Definition info_header (name : string) (state : string) (id : Z)
           (node_id vmname ram : pyval) (host : string) (console : pyval) : string :=
  "VirtualBox VM " +:+ name +:+ " is " +:+ state +:+ LF +:+
  "  Local node ID is " +:+ pretty id +:+ LF +:+
  "  Server's node ID is " +:+ py_str node_id +:+ LF +:+
  "  VirtualBox name is " +:+ QUOTE +:+ py_str vmname +:+ QUOTE +:+ LF +:+
  "  RAM is " +:+ py_str ram +:+ " MB" +:+ LF +:+
  "  VirtualBox VM's server runs on " +:+ host +:+
  ", console is on port " +:+ py_str console +:+ LF.

Definition info : M string :=
  status <- get node_status_of ;;
  let state := if bool_decide (status = started) then "started" else "stopped" in
  name <- get node_name ;;
  id <- get node_id ;;
  node_id <- get _node_id ;;
  settings <- get _settings ;;
  vmname <- lift (subscript settings "vmname") ;;
  ram <- lift (subscript settings "ram") ;;
  host <- get compute_id ;;
  console <- lift (subscript settings "console") ;;
  let info := info_header name state id node_id vmname ram host console in
  ports <- get _ports ;;
  let port_info :=
    fold_left (fun port_info port => port_info +:+ port_line port) ports "" in
  ret (info +:+ port_info).

Definition serialConsole : M bool :=
  settings <- get _settings ;;
  enable_remote_console <- lift (subscript settings "enable_remote_console") ;;
  if truthy enable_remote_console then ret false else ret true.

(** ** A computable fragment of [str.format] *)

(** How the replacement fields seen so far are numbered: [{}] numbers
    them automatically, [{0}] by hand, and a format string may not mix
    the two. *)
Inductive numbering := Unnumbered | Automatic (next : N) | Manual.

Definition is_digit (c : Ascii.ascii) : bool :=
  let n := Ascii.N_of_ascii c in ((48 <=? n) && (n <=? 57))%N.

Fixpoint all_digits (s : string) : bool :=
  match s with
  | EmptyString => true
  | String c s' => is_digit c && all_digits s'
  end.

Fixpoint decimal (s : string) (acc : N) : N :=
  match s with
  | EmptyString => acc
  | String c s' => decimal s' (10 * acc + (Ascii.N_of_ascii c - 48))%N
  end.

(** A field that asks for a conversion ([!r]), a format specification
    ([:>3]) or an attribute or item of the argument ([.real], [[0]]). *)
Fixpoint has_selector (s : string) : bool :=
  match s with
  | EmptyString => false
  | String c s' =>
      bool_decide (c = "!"%char) || bool_decide (c = ":"%char)
      || bool_decide (c = "."%char) || bool_decide (c = "["%char)
      || has_selector s'
  end.

(** A field name with a character outside ASCII (Python takes any
    Unicode decimal digit in an index). *)
Fixpoint has_non_ascii (s : string) : bool :=
  match s with
  | EmptyString => false
  | String c s' => (128 <=? Ascii.N_of_ascii c)%N || has_non_ascii s'
  end.

(** The largest index [str.format] reads; a longer run of digits is a
    [ValueError]. *)
Definition max_index : N := 9223372036854775807.

(** The positional arguments [(interface_number, segment_number)]. *)
Definition positional (i : N) (interface_number segment_number : Z) : res string :=
  match i with
  | 0%N => Ok (pretty interface_number)
  | 1%N => Ok (pretty segment_number)
  | _ => Raise IndexError
  end.

(** The keyword arguments [port0], [port1], [segment0], [segment1]. *)
Definition keyword (name : string) (interface_number segment_number : Z) : res string :=
  if bool_decide (name = "port0") then Ok (pretty interface_number)
  else if bool_decide (name = "port1") then Ok (pretty (1 + interface_number))
  else if bool_decide (name = "segment0") then Ok (pretty segment_number)
  else if bool_decide (name = "segment1") then Ok (pretty (1 + segment_number))
  else Raise KeyError.

(** The text that replaces the field [{name}], and the numbering after it. *)
Definition field_value (name : string) (nb : numbering)
           (interface_number segment_number : Z) : res (string * numbering) :=
  let with_numbering nb' r :=
    match r with Ok s => Ok (s, nb') | Raise e => Raise e end in
  if bool_decide (name = "") then
    match nb with
    | Manual => Raise ValueError
    | Unnumbered =>
        with_numbering (Automatic 1) (positional 0 interface_number segment_number)
    | Automatic i =>
        with_numbering (Automatic (i + 1)) (positional i interface_number segment_number)
    end
  else if has_selector name || has_non_ascii name then Raise NotModelled
  else if all_digits name then
    match nb with
    | Automatic _ => Raise ValueError
    | _ =>
        if (decimal name 0 <=? max_index)%N
        then with_numbering Manual
               (positional (decimal name 0) interface_number segment_number)
        else Raise ValueError
    end
  else with_numbering nb (keyword name interface_number segment_number).

(** The scan of the format string: [field] is the name read so far of
    the replacement field the scan is inside of, if any; [out] is the
    text produced so far. *)
Fixpoint format_scan (s : string) (field : option string) (nb : numbering)
         (out : string) (interface_number segment_number : Z) : res string :=
  match s, field with
  | EmptyString, None => Ok out
  | EmptyString, Some _ => Raise ValueError
  | String c rest, None =>
      if bool_decide (c = "{"%char) then
        match rest with
        | String "{"%char rest' =>
            format_scan rest' None nb (out +:+ "{") interface_number segment_number
        | _ => format_scan rest (Some "") nb out interface_number segment_number
        end
      else if bool_decide (c = "}"%char) then
        match rest with
        | String "}"%char rest' =>
            format_scan rest' None nb (out +:+ "}") interface_number segment_number
        | _ => Raise ValueError
        end
      else format_scan rest None nb (out +:+ String c "") interface_number segment_number
  | String c rest, Some name =>
      if bool_decide (c = "}"%char) then
        match field_value name nb interface_number segment_number with
        | Ok (text, nb') =>
            format_scan rest None nb' (out +:+ text) interface_number segment_number
        | Raise e => Raise e
        end
      else if bool_decide (c = "{"%char)
           then Raise (if has_selector name then NotModelled else ValueError)
      else format_scan rest (Some (name +:+ String c "")) nb out
                       interface_number segment_number
  end.

(** [str.format] on format strings made of text, [{{], [}}] and the
    fields [{}], [{0}], [{1}], [{port0}], [{port1}], [{segment0}] and
    [{segment1}], with the exceptions Python raises on a stray brace, an
    index out of range, an unknown keyword or mixed numbering.  Fields
    with a conversion, a format specification (nested fields included),
    a selector or a character outside ASCII are outside the fragment:
    [NotModelled]. *)
Definition format_fragment : PortNameFormat :=
  fun s interface_number segment_number =>
    format_scan s None Unnumbered "" interface_number segment_number.

(** ** The naming scheme in closed form *)

(** How many adapters before adapter [k] took their name from the
    format string: all of them, but for adapter 0 when the first port
    has a name of its own. *)
Definition formatted_before (first_port_name : option string) (k : Z) : Z :=
  if name_is_set first_port_name && (0 <? k) then k - 1 else k.

(** The interface and segment numbers after [j] formatted names, for
    the segment size [size]. *)
Definition interface_of (size : Z) (j : Z) : Z :=
  if size =? 0 then j else j mod Z.abs size.

Definition segment_of (size : Z) (j : Z) : Z :=
  if size =? 0 then 0 else j / Z.abs size.

(** The name of adapter [k]. *)
Definition port_name_of `{PortNameFormat} (fmt : string) (size : Z)
           (first_port_name : option string) (k : Z) : res string :=
  if name_is_set first_port_name && (k =? 0)
  then Ok (default "" first_port_name)
  else let j := formatted_before first_port_name k in
       str_format fmt (interface_of size j) (segment_of size j).

(** The port [_addAdapters] makes for adapter [k] under the name [name]. *)
Definition adapter_port (name : string) (k : Z) : Port :=
  mkPort name (Some k) (Some 0) true "".

(** The ports made for the adapters [ks], in order, up to the first
    name that [format] refuses, and how the loop ends. *)
Fixpoint name_ports `{PortNameFormat} (fmt : string) (size : Z)
         (first_port_name : option string) (ks : list Z) : list Port * res unit :=
  match ks with
  | [] => ([], Ok tt)
  | k :: ks' =>
      match port_name_of fmt size first_port_name k with
      | Ok name =>
          let rest := name_ports fmt size first_port_name ks' in
          (adapter_port name k :: fst rest, snd rest)
      | Raise e => ([], Raise e)
      end
  end.

(** The counters of the loop after one more formatted name. *)
Definition next_counters (size : Z) (counters : Z * Z) : Z * Z :=
  let interface_number := fst counters + 1 in
  if negb (size =? 0) && (interface_number mod size =? 0)
  then (0, snd counters + 1)
  else (interface_number, snd counters).

(** The port list a node in the state [st] gets from an empty list for
    the adapter count [adapters]. *)
Definition fresh_ports `{PortNameFormat} (st : Node) (adapters : pyval) : list Port :=
  match as_int adapters with
  | Some n =>
      fst (name_ports (_port_name_format st) (_port_segment_size st)
                      (_first_port_name st) (py_range n))
  | None => []
  end.

(** ** The port list and the adapter count *)





(** A create cycle is [create] followed by its callback on the server's
    answer; an update cycle is the update callback on the answer. *)
Inductive cycle :=
| CreateCycle (vmname : string) (name : option string) (node_id : pyval)
              (port_name_format : string) (port_segment_size : Z)
              (first_port_name : option string) (linked_clone : bool)
              (additional_settings : gmap string pyval)
              (default_name_format : option string)
              (result : gmap string pyval)
| UpdateCycle (result : gmap string pyval).

Definition run_cycle `{PortNameFormat} (c : cycle) : M unit :=
  match c with
  | CreateCycle vmname name node_id port_name_format port_segment_size
                first_port_name linked_clone additional_settings
                default_name_format result =>
      create vmname name node_id port_name_format port_segment_size
             first_port_name linked_clone additional_settings
             default_name_format ;;
      _createCallback result
  | UpdateCycle result => _updateCallback result
  end.


(** ** The naming scheme as the specification words it *)

(** "An interface index that increments once per adapter". *)
Definition spec_interface_index (k : Z) : Z := k.

(** "A segment counter that increments every [size] adapters when a
    segment size is configured". *)
Definition spec_segment_counter (size : Z) (k : Z) : Z :=
  if size =? 0 then 0 else k / size.

(** "The first port takes the override string as its name; each other
    port's name is the format string applied to the current interface
    index and segment counter". *)
Definition spec_port_name `{PortNameFormat} (fmt : string) (size : Z)
           (first_port_name : option string) (k : Z) : res string :=
  if name_is_set first_port_name && (k =? 0)
  then Ok (default "" first_port_name)
  else str_format fmt (spec_interface_index k) (spec_segment_counter size k).

(** ** The settings record as the specification words it *)

(** "vmname, console port, console host, adapter count, adapter type,
    RAM size, headless flag, ACPI-shutdown flag, remote-console-enabled
    flag, linked-clone flag". *)
Definition spec_key_set : list string :=
  ["vmname"; "console"; "console_host"; "adapters"; "adapter_type"; "ram";
   "headless"; "acpi_shutdown"; "enable_remote_console"; "linked_clone"].

(** "vmname defaulting to the empty string, console and console_host
    defaulting to None, and the remaining keys defaulting to the values
    in the shared settings table". *)
Definition spec_default (table : gmap string pyval) (key : string) : option pyval :=
  if bool_decide (key = "vmname") then Some (PStr "")
  else if bool_decide (key = "console") then Some PNone
  else if bool_decide (key = "console_host") then Some PNone
  else table !! key.

Definition settings_as_specified (table : gmap string pyval) (st : Node) : Prop :=
  Forall (fun key => is_Some (_settings st !! key)
                     /\ _settings st !! key = spec_default table key)
         spec_key_set.

(** The keys the constructor reads from the settings table. *)
Definition table_keys : list string :=
  ["adapters"; "use_any_adapter"; "adapter_type"; "ram"; "headless";
   "acpi_shutdown"; "enable_remote_console"].

(** The value the constructor stores under each key it sets. *)
Definition constructed_default (table : gmap string pyval) (key : string)
  : option pyval :=
  if bool_decide (key = "vmname") then Some (PStr "")
  else if bool_decide (key = "console") then Some PNone
  else if bool_decide (key = "console_host") then Some PNone
  else if bool_decide (key ∈ table_keys) then table !! key
  else None.

(** ** Requests *)

(** Whether [update] forces "vmname": a "name" that differs from the
    node's name, on a linked clone. *)
Definition vmname_forced (st : Node) (new_settings : gmap string pyval) : bool :=
  match new_settings !! "name" with
  | Some new_name => py_ne new_name (PStr (node_name st)) && _linked_clone st
  | None => false
  end.

(** The name given to the create dispatch. *)
Definition request_name (r : request) : option string :=
  match r with
  | CreateRequest name _ _ _ => Some name
  | UpdateRequest _ => None
  end.

(** ** Example inputs *)

(** A settings table with the entries the constructor reads, and one
    for the linked-clone flag. *)
Definition example_table : gmap string pyval :=
  list_to_map [("adapters", PInt 1);
               ("use_any_adapter", PBool false);
               ("adapter_type", PStr "Intel PRO/1000 MT Desktop (82540EM)");
               ("ram", PInt 0);
               ("headless", PBool false);
               ("acpi_shutdown", PBool false);
               ("enable_remote_console", PBool false);
               ("linked_clone", PBool true)].

(** A node as the base class may leave it before the constructor body
    runs: a name among its settings, no ports, nothing sent. *)
Definition example_base : Node :=
  mkNode false "" 0 None (list_to_map [("name", PStr "")]) [] PNone
         "" 1 stopped "local" [].


(** A started node with three adapters, the second of them linked. *)
Definition example_running : Node :=
  mkNode false "Ethernet{0}" 0 None
         (list_to_map [("vmname", PStr "debian"); ("console", PInt 5000);
                       ("console_host", PStr "0.0.0.0"); ("adapters", PInt 3);
                       ("ram", PInt 512); ("enable_remote_console", PBool false)])
         [mkPort "Ethernet0" (Some 0) (Some 0) true "";
          mkPort "Ethernet1" (Some 1) (Some 0) false "connected to R1 on port f0/0";
          mkPort "Ethernet2" (Some 2) (Some 0) true ""]
         (PStr "1f0a") "debian-1" 7 started "local" [].

(** A node without ports that names its ports by segments of two. *)
Definition example_segmented : Node :=
  mkNode false "Ethernet{segment0}/{port0}" 2 None
         (list_to_map [("vmname", PStr "router"); ("adapters", PInt 3)]) []
         PNone "router-1" 2 stopped "local" [].



(** ** The console port and the counters given to [format] *)

(** [console()]: the console port of the VM, as the settings hold it. *)
Definition console : M pyval :=
  settings <- get _settings ;;
  lift (subscript settings "console").

(** A formatter that refuses the counters a naming loop with the
    segment size [size] should never produce: a negative interface or
    segment number, or an interface number that does not fit in a
    segment. *)
Definition guarded_format (format : PortNameFormat) (size : Z) : PortNameFormat :=
  fun fmt interface_number segment_number =>
    if (0 <=? interface_number) && (0 <=? segment_number)
       && ((size =? 0) || (interface_number <? Z.abs size))
    then format fmt interface_number segment_number
    else Raise IndexError.

(** The dictionary [update] works on once it has forced "vmname". *)
Definition forced_settings (st : Node) (new_settings : gmap string pyval)
  : gmap string pyval :=
  if vmname_forced st new_settings
  then <["vmname" := default PNone (new_settings !! "name")]> new_settings
  else new_settings.

(** A linked clone named "debian-1" whose VirtualBox name is still the
    one it was cloned under. *)
Definition example_clone : Node :=
  mkNode true "Ethernet{0}" 0 (Some "")
         (list_to_map [("vmname", PStr "debian"); ("console", PInt 5000);
                       ("adapters", PInt 1); ("ram", PInt 512)])
         [mkPort "Ethernet0" (Some 0) (Some 0) true ""]
         (PStr "1f0a") "debian-1" 7 stopped "local" [].



(** * Properties *)

(** ** The loop of [_addAdapters] *)

Lemma mod_abs_zero (size x : Z) :
  (x mod size =? 0) = (x mod Z.abs size =? 0).
Proof.
  pose proof (Z.eq_mod_abs size x 0) as H.
  rewrite !Zmod_0_l in H.
  destruct (Z.eqb_spec (x mod size) 0) as [E|E];
    destruct (Z.eqb_spec (x mod Z.abs size) 0) as [E'|E']; try reflexivity.
  - apply H in E. contradiction.
  - apply H in E'. contradiction.
Qed.

Lemma next_counters_closed (size j : Z) :
  0 <= j ->
  next_counters size (interface_of size j, segment_of size j)
  = (interface_of size (j + 1), segment_of size (j + 1)).
Proof.
  intros Hj. unfold next_counters, interface_of, segment_of. simpl.
  destruct (Z.eqb_spec size 0) as [->|Hs]; [done|]. simpl.
  rewrite mod_abs_zero.
  assert (0 < Z.abs size) as Ha by lia.
  generalize dependent (Z.abs size). intros a Ha.
  clear Hs size.
  pose proof (Z.mod_pos_bound j a Ha) as Hb.
  pose proof (Z.div_mod j a ltac:(lia)) as Hd.
  destruct (Z.eqb_spec ((j mod a + 1) mod a) 0) as [E|E].
  - assert (j mod a + 1 = a) as Hfull.
    { destruct (Z.eq_dec (j mod a + 1) a); [done|].
      rewrite Z.mod_small in E; lia. }
    f_equal.
    + apply (Z.mod_unique_pos _ _ (j / a + 1)); lia.
    + apply (Z.div_unique_pos _ _ _ 0); lia.
  - assert (j mod a + 1 < a) as Hroom.
    { destruct (Z.eq_dec (j mod a + 1) a) as [Hfull|]; [|lia].
      rewrite Hfull, Z.mod_same in E; lia. }
    f_equal.
    + apply (Z.mod_unique_pos _ _ (j / a)); lia.
    + apply (Z.div_unique_pos _ _ _ (j mod a + 1)); lia.
Qed.

Section Loop.

Context {formatter : PortNameFormat}.

Lemma set_ports_same (st : Node) : set_ports (_ports st) st = st.
Proof. by destruct st. Qed.

Lemma set_ports_twice (ps qs : list Port) (st : Node) :
  set_ports ps (set_ports qs st) = set_ports ps st.
Proof. done. Qed.

Lemma add_adapter_unfold (counters : Z * Z) (k : Z) (st : Node) :
  add_adapter counters k st =
    if name_is_set (_first_port_name st) && (k =? 0)
    then (Ok counters,
          set_ports (_ports st ++ [adapter_port (default "" (_first_port_name st)) k]) st)
    else match str_format (_port_name_format st) (fst counters) (snd counters) with
         | Ok name =>
             (Ok (next_counters (_port_segment_size st) counters),
              set_ports (_ports st ++ [adapter_port name k]) st)
         | Raise e => (Raise e, st)
         end.
Proof.
  destruct counters as [i s].
  unfold add_adapter, next_counters, bind, get, lift, modify, ret. simpl.
  destruct (name_is_set _ && _); [done|].
  destruct (str_format _ _ _); [|done].
  simpl. by destruct (negb _ && _).
Qed.

Lemma formatted_before_succ (first : option string) (a : nat) :
  formatted_before first (Z.of_nat (S a)) =
    if name_is_set first && (Z.of_nat a =? 0)
    then formatted_before first (Z.of_nat a)
    else formatted_before first (Z.of_nat a) + 1.
Proof.
  unfold formatted_before. destruct (name_is_set first); simpl; [|lia].
  destruct (Z.eqb_spec (Z.of_nat a) 0) as [E|E]; simpl.
  - replace a with 0%nat by lia. done.
  - destruct (Z.ltb_spec 0 (Z.of_nat (S a))), (Z.ltb_spec 0 (Z.of_nat a)); lia.
Qed.

Lemma formatted_before_nonneg (first : option string) (a : nat) :
  0 <= formatted_before first (Z.of_nat a).
Proof.
  unfold formatted_before. destruct (name_is_set first); simpl; [|lia].
  destruct (Z.ltb_spec 0 (Z.of_nat a)); lia.
Qed.

(** The loop over the adapters [a .. a + len - 1], entered with the
    counters that [a] adapters leave, makes the ports of [name_ports]. *)
Lemma for_each_add_adapter (len a : nat) (st : Node) :
  let fmt := _port_name_format st in
  let size := _port_segment_size st in
  let first := _first_port_name st in
  let ks := map Z.of_nat (seq a len) in
  let j := formatted_before first (Z.of_nat a) in
  let named := name_ports fmt size first ks in
  exists c,
    for_each add_adapter (interface_of size j, segment_of size j) ks st
    = (match snd named with Ok _ => Ok c | Raise e => Raise e end,
       set_ports (_ports st ++ fst named) st).
Proof.
  revert a st. induction len as [|len IH]; intros a st;
    cbn [seq map for_each name_ports].
  - eexists. unfold ret. cbn [fst snd]. by rewrite app_nil_r, set_ports_same.
  - unfold bind. rewrite add_adapter_unfold. unfold port_name_of. cbn [fst snd].
    destruct (name_is_set (_first_port_name st) && (Z.of_nat a =? 0)) eqn:Hfirst.
    + specialize (IH (S a) (set_ports
        (_ports st ++ [adapter_port (default "" (_first_port_name st)) (Z.of_nat a)]) st)).
      simpl in IH. rewrite formatted_before_succ, Hfirst in IH.
      destruct IH as [c IH]. exists c. rewrite IH. simpl.
      by rewrite <- app_assoc.
    + destruct (str_format _ _ _) as [name|e] eqn:Hname; simpl.
      * rewrite next_counters_closed by apply formatted_before_nonneg.
        specialize (IH (S a) (set_ports (_ports st ++ [adapter_port name (Z.of_nat a)]) st)).
        simpl in IH. rewrite formatted_before_succ, Hfirst in IH.
        destruct IH as [c IH]. exists c. rewrite IH. simpl.
        by rewrite <- app_assoc.
      * exists (0, 0). by rewrite app_nil_r, set_ports_same.
Qed.

(** [_addAdapters] in closed form: the ports it appends and how it
    ends, for every adapter count. *)
Lemma addAdapters_closed_form (adapters : pyval) (st : Node) :
  _addAdapters adapters st =
    match as_int adapters with
    | Some n =>
        let named := name_ports (_port_name_format st) (_port_segment_size st)
                                (_first_port_name st) (py_range n) in
        (snd named, set_ports (_ports st ++ fst named) st)
    | None => (Raise TypeError, st)
    end.
Proof.
  unfold _addAdapters. destruct (as_int adapters) as [n|]; [|done].
  destruct (for_each_add_adapter (Z.to_nat n) 0 st) as [c Hloop].
  simpl in Hloop. unfold bind, py_range.
  replace (interface_of _ _) with 0 in Hloop
    by (unfold interface_of, formatted_before; rewrite andb_false_r;
        by destruct (_ =? 0)).
  replace (segment_of _ _) with 0 in Hloop
    by (unfold segment_of, formatted_before; rewrite andb_false_r;
        by destruct (_ =? 0)).
  rewrite Hloop.
  by destruct (snd (name_ports _ _ _ _)) as [[]|e].
Qed.

End Loop.

(** ** The loops over dictionaries *)

(** The loop of [update] keeps the items that differ from what is stored. *)
Lemma changed_params_filter (settings new_settings : gmap string pyval) :
  changed_params settings new_settings
  = filter (fun item => differs_from_stored settings item.1 item.2 = true)
           new_settings.
Proof.
  unfold changed_params.
  apply (map_fold_weak_ind
           (fun params m =>
              params = filter (fun item =>
                                 differs_from_stored settings item.1 item.2 = true) m)).
  - by rewrite map_filter_empty.
  - intros name value m params Hfresh ->.
    destruct (differs_from_stored settings name value) eqn:Hd.
    + by rewrite map_filter_insert_True.
    + rewrite map_filter_insert_False by (simpl; congruence).
      by rewrite delete_id.
Qed.

(** What the loop of [_updateCallback] leaves under each key, and
    whether it saw the adapter count change. *)
Lemma apply_items_lookup (settings result : gmap string pyval) :
  let looped := map_fold apply_item (settings, false) result in
  (forall key,
     fst looped !! key =
       match result !! key with
       | Some value =>
           if differs_from_stored settings key value then Some value
           else settings !! key
       | None => settings !! key
       end)
  /\ snd looped =
       match result !! "adapters" with
       | Some value => differs_from_stored settings "adapters" value
       | None => false
       end.
Proof.
  cbv zeta.
  apply (map_fold_weak_ind
           (fun acc m =>
              (forall key,
                 fst acc !! key =
                   match m !! key with
                   | Some value =>
                       if differs_from_stored settings key value then Some value
                       else settings !! key
                   | None => settings !! key
                   end)
              /\ snd acc =
                   match m !! "adapters" with
                   | Some value => differs_from_stored settings "adapters" value
                   | None => false
                   end)).
  - split; [intros key|]; by rewrite lookup_empty.
  - intros name value m [s changed] Hfresh [Hs Hchanged]. simpl in *.
    assert (differs_from_stored s name value
            = differs_from_stored settings name value) as Hsame.
    { unfold differs_from_stored. by rewrite Hs, Hfresh. }
    unfold apply_item. simpl. rewrite Hsame.
    destruct (differs_from_stored settings name value) eqn:Hd; simpl.
    + split.
      * intros key. destruct (decide (name = key)) as [->|Hne].
        -- by rewrite !lookup_insert_eq, Hd.
        -- by rewrite !lookup_insert_ne.
      * case_bool_decide as Hname.
        -- subst name. by rewrite lookup_insert_eq, Hd.
        -- by rewrite lookup_insert_ne.
    + split.
      * intros key. destruct (decide (name = key)) as [->|Hne].
        -- by rewrite lookup_insert_eq, Hd, Hs, Hfresh.
        -- by rewrite lookup_insert_ne.
      * destruct (decide (name = "adapters")) as [->|Hne].
        -- by rewrite lookup_insert_eq, Hd, Hchanged, Hfresh.
        -- by rewrite lookup_insert_ne.
Qed.

(** ** [serialConsole], [create] and [info] *)

(** C9: [serialConsole()] returns [False] exactly when the
    "enable_remote_console" setting is truthy and [True] exactly when it
    is falsy; it changes nothing of the node. *)
Theorem serialConsole_iff_remote_console_off (st : Node) :
  (fst (serialConsole st) = Ok false <->
     exists v, _settings st !! "enable_remote_console" = Some v /\ truthy v = true)
  /\ (fst (serialConsole st) = Ok true <->
     exists v, _settings st !! "enable_remote_console" = Some v /\ truthy v = false)
  /\ snd (serialConsole st) = st.
Proof.
  unfold serialConsole, bind, get, lift, subscript, ret. simpl.
  destruct (_settings st !! "enable_remote_console") as [v|] eqn:Hv; simpl.
  - destruct (truthy v) eqn:Ht; simpl; repeat split; try done.
    + intros _. by exists v.
    + intros (w & Hw & Hf). congruence.
    + intros (w & Hw & Hf). congruence.
    + intros _. by exists v.
  - repeat split; try done; by intros (w & Hw & _).
Qed.

(** C10: the name [create] passes to the generic create dispatch is
    [vmname] when the optional name is absent or empty, and the given
    name otherwise. *)
Theorem create_name_defaults_to_vmname
        (vmname : string) (name : option string) (node_id : pyval)
        (port_name_format : string) (port_segment_size : Z)
        (first_port_name : option string) (linked_clone : bool)
        (additional_settings : gmap string pyval)
        (default_name_format : option string) (st : Node) :
  request_name <$>
    last (dispatched (snd (create vmname name node_id port_name_format
                                  port_segment_size first_port_name linked_clone
                                  additional_settings default_name_format st)))
  = Some (Some (match name with
                | None => vmname
                | Some given => if bool_decide (given = "") then vmname else given
                end)).
Proof.
  unfold create, bind, modify. simpl. rewrite last_snoc. simpl.
  destruct name as [given|]; simpl; [|done].
  by case_bool_decide.
Qed.

(** C7: [create] records the linked-clone flag and the naming
    configuration on the node, and hands the generic create dispatch a
    parameter dictionary that holds every entry of
    [additional_settings], and "vmname" and "linked_clone" under the
    keys [additional_settings] leaves free; it sends that one request
    and touches neither the settings nor the ports. *)
Theorem create_records_and_forwards
        (vmname : string) (name : option string) (node_id : pyval)
        (port_name_format : string) (port_segment_size : Z)
        (first_port_name : option string) (linked_clone : bool)
        (additional_settings : gmap string pyval)
        (default_name_format : option string) (st : Node) :
  let done := create vmname name node_id port_name_format port_segment_size
                     first_port_name linked_clone additional_settings
                     default_name_format st in
  fst done = Ok tt
  /\ _linked_clone (snd done) = linked_clone
  /\ _port_name_format (snd done) = port_name_format
  /\ _port_segment_size (snd done) = port_segment_size
  /\ _first_port_name (snd done) = first_port_name
  /\ _settings (snd done) = _settings st
  /\ _ports (snd done) = _ports st
  /\ exists name' params,
       dispatched (snd done)
       = dispatched st ++ [CreateRequest name' node_id params default_name_format]
       /\ forall key,
            params !! key =
              match additional_settings !! key with
              | Some value => Some value
              | None =>
                  if bool_decide (key = "vmname") then Some (PStr vmname)
                  else if bool_decide (key = "linked_clone")
                       then Some (PBool linked_clone)
                       else None
              end.
Proof.
  unfold create, bind, modify. simpl. repeat split.
  eexists _, _. split; [reflexivity|].
  intros key. rewrite lookup_union.
  destruct (additional_settings !! key) as [value|]; simpl.
  - by rewrite union_Some_l.
  - rewrite (left_id_L None _).
    repeat case_bool_decide; subst; try done.
    by rewrite !lookup_insert_ne, lookup_empty.
Qed.

Lemma append_assoc (a b c : string) : (a +:+ b) +:+ c = a +:+ (b +:+ c).
Proof.
  induction a as [|ch a IH]; [done|].
  change (String ch ((a +:+ b) +:+ c) = String ch (a +:+ (b +:+ c))).
  by rewrite IH.
Qed.

Lemma append_empty_r (a : string) : a +:+ "" = a.
Proof.
  induction a as [|ch a IH]; [done|].
  change (String ch (a +:+ "") = String ch a).
  by rewrite IH.
Qed.

(** The accumulation of [port_info] writes the ports' lines in order. *)
Lemma port_info_lines (ports : list Port) (acc : string) :
  fold_left (fun port_info port => port_info +:+ port_line port) ports acc
  = acc +:+ foldr (fun port lines => port_line port +:+ lines) "" ports.
Proof.
  revert acc. induction ports as [|p ports IH]; intros acc; simpl.
  - by rewrite append_empty_r.
  - by rewrite IH, append_assoc.
Qed.

(** C8: when the settings hold "vmname", "ram" and "console", [info()]
    returns the text written out below and leaves the node as it is:
    the six lines of the header, whose first line says "started" exactly
    when the status is the started state and "stopped" in every other
    case, followed by one line per port in the order of the port list:
    the name with "is empty" for a free port, the name with the
    description otherwise.  Values are rendered as [str] renders them. *)
Theorem info_reports_state_and_ports (st : Node) (vmname ram console : pyval) :
  _settings st !! "vmname" = Some vmname ->
  _settings st !! "ram" = Some ram ->
  _settings st !! "console" = Some console ->
  let nl := String "010"%char "" in
  let quote := String "034"%char "" in
  let str := fun v : pyval =>
    match v with
    | PNone => "None"
    | PBool true => "True"
    | PBool false => "False"
    | PInt z => pretty z
    | PStr s => s
    end in
  let state :=
    if bool_decide (node_status_of st = started) then "started" else "stopped" in
  info st =
    (Ok ("VirtualBox VM " +:+ node_name st +:+ " is " +:+ state +:+ nl +:+
         "  Local node ID is " +:+ pretty (node_id st) +:+ nl +:+
         "  Server's node ID is " +:+ str (_node_id st) +:+ nl +:+
         "  VirtualBox name is " +:+ quote +:+ str vmname +:+ quote +:+ nl +:+
         "  RAM is " +:+ str ram +:+ " MB" +:+ nl +:+
         "  VirtualBox VM's server runs on " +:+ compute_id st +:+
         ", console is on port " +:+ str console +:+ nl +:+
         foldr (fun port lines =>
                  (if port_isFree port
                   then "     " +:+ port_name port +:+ " is empty" +:+ nl
                   else "     " +:+ port_name port +:+ " "
                        +:+ port_description port +:+ nl) +:+ lines)
               "" (_ports st)),
     st).
Proof.
  intros Hvmname Hram Hconsole. cbv zeta.
  unfold info, bind, get, lift, subscript, ret. cbn [fst snd].
  rewrite Hvmname, Hram, Hconsole. cbn iota beta.
  rewrite port_info_lines. unfold info_header.
  rewrite !append_assoc. reflexivity.
Qed.

(** The status text of a started node with a linked port. *)
Lemma info_reports_state_and_ports_witness :
  let nl := String "010"%char "" in
  let quote := String "034"%char "" in
  info example_running =
    (Ok ("VirtualBox VM debian-1 is started" +:+ nl +:+
         "  Local node ID is 7" +:+ nl +:+
         "  Server's node ID is 1f0a" +:+ nl +:+
         "  VirtualBox name is " +:+ quote +:+ "debian" +:+ quote +:+ nl +:+
         "  RAM is 512 MB" +:+ nl +:+
         "  VirtualBox VM's server runs on local, console is on port 5000" +:+ nl +:+
         "     Ethernet0 is empty" +:+ nl +:+
         "     Ethernet1 connected to R1 on port f0/0" +:+ nl +:+
         "     Ethernet2 is empty" +:+ nl),
     example_running).
Proof.
  cbv zeta.
  rewrite (info_reports_state_and_ports example_running
             (PStr "debian") (PInt 512) (PInt 5000)) by reflexivity.
  vm_compute. reflexivity.
Defined.

(** ** [update] *)

(** C4: [update] first forces "vmname" to the new name when
    [new_settings] holds a "name" that differs from the node's name and
    the node is a linked clone; it then forwards to the update dispatch
    exactly the items whose key is stored in the settings with a
    different value, in one request, and sends nothing when there is no
    such item.  The settings themselves are left as they are. *)
Theorem update_forwards_changed_settings (new_settings : gmap string pyval) (st : Node) :
  let forced :=
    if vmname_forced st new_settings
    then <["vmname" := default PNone (new_settings !! "name")]> new_settings
    else new_settings in
  exists params,
    update new_settings st =
      (Ok forced,
       if bool_decide (params = ∅) then st else dispatch (UpdateRequest params) st)
    /\ forall key value,
         params !! key = Some value <->
         forced !! key = Some value
         /\ exists old, _settings st !! key = Some old /\ py_ne old value = true.
Proof.
  cbv zeta. exists (changed_params (_settings st)
                      (if vmname_forced st new_settings
                       then <["vmname" := default PNone (new_settings !! "name")]>
                              new_settings
                       else new_settings)).
  split.
  - unfold update, bind, get, modify, ret, vmname_forced. simpl.
    destruct (new_settings !! "name") as [new_name|]; simpl.
    + destruct (py_ne new_name (PStr (node_name st)) && _linked_clone st);
        by case_bool_decide.
    + by case_bool_decide.
  - intros key value. rewrite changed_params_filter, map_lookup_filter_Some.
    unfold differs_from_stored. simpl.
    destruct (_settings st !! key) as [old|]; split.
    + intros [Hkey Hne]. split; [done|]. by exists old.
    + by intros [Hkey (old' & [= <-] & Hne)].
    + by intros [_ ?].
    + by intros [_ (old' & ? & _)].
Qed.

(** ** The update callback *)

Section Callbacks.

Context {formatter : PortNameFormat}.

Lemma addAdapters_settings (adapters : pyval) (st : Node) :
  _settings (snd (_addAdapters adapters st)) = _settings st.
Proof.
  rewrite addAdapters_closed_form. by destruct (as_int adapters).
Qed.

Lemma updateCallback_unfold (result : gmap string pyval) (st : Node) :
  _updateCallback result st =
    let looped := map_fold apply_item (_settings st, false) result in
    let stored := set_settings (fst looped) st in
    if snd looped then
      match fst looped !! "adapters" with
      | Some adapters => _addAdapters adapters (set_ports [] stored)
      | None => (Raise KeyError, set_ports [] stored)
      end
    else (Ok tt, stored).
Proof.
  unfold _updateCallback, bind, get, modify, lift, subscript, ret. simpl.
  destruct (snd (map_fold apply_item (_settings st, false) result)); [|done].
  simpl. by destruct (fst (map_fold apply_item (_settings st, false) result) !! "adapters").
Qed.

Lemma updateCallback_settings (result : gmap string pyval) (st : Node) :
  _settings (snd (_updateCallback result st))
  = fst (map_fold apply_item (_settings st, false) result).
Proof.
  rewrite updateCallback_unfold. cbv zeta.
  destruct (map_fold apply_item (_settings st, false) result) as [stored changed].
  cbn [fst snd]. destruct changed; [|done].
  destruct (stored !! "adapters"); [|done].
  by rewrite addAdapters_settings.
Qed.

(** C5: the update callback stores the result's value under a key
    exactly when the key is stored already and the result gives it a
    different value; every other stored key keeps its value and no key
    is added.  [create], the create callback and [update] leave the
    settings as they are. *)
Theorem settings_follow_update_result (result : gmap string pyval) (st : Node) :
  (forall key,
     _settings (snd (_updateCallback result st)) !! key =
       match _settings st !! key, result !! key with
       | Some old, Some value => if py_ne old value then Some value else Some old
       | Some old, None => Some old
       | None, _ => None
       end)
  /\ (forall vmname name node_id port_name_format port_segment_size
             first_port_name linked_clone additional_settings default_name_format,
        _settings (snd (create vmname name node_id port_name_format
                               port_segment_size first_port_name linked_clone
                               additional_settings default_name_format st))
        = _settings st)
  /\ (forall answer, _settings (snd (_createCallback answer st)) = _settings st)
  /\ (forall new_settings, _settings (snd (update new_settings st)) = _settings st).
Proof.
  split; [|split; [|split]].
  - intros key. rewrite updateCallback_settings.
    destruct (apply_items_lookup (_settings st) result) as [Hlookup _].
    rewrite Hlookup. unfold differs_from_stored.
    destruct (_settings st !! key) as [old|], (result !! key) as [value|];
      [by destruct (py_ne old value)|done..].
  - done.
  - intros answer. unfold _createCallback, bind, get. simpl.
    apply addAdapters_settings.
  - intros new_settings. unfold update, bind, get, modify, ret. simpl.
    by case_bool_decide.
Qed.

(** C3: when the result gives the stored "adapters" setting a different
    value, the update callback leaves the node with the ports that an
    empty port list gets for the new adapter count, whatever the ports
    were before; otherwise it leaves the port list as it was. *)
Theorem update_rebuilds_ports (result : gmap string pyval) (st : Node) :
  _ports (snd (_updateCallback result st)) =
    match result !! "adapters" with
    | Some adapters =>
        if differs_from_stored (_settings st) "adapters" adapters
        then fresh_ports st adapters
        else _ports st
    | None => _ports st
    end.
Proof.
  rewrite updateCallback_unfold. cbv zeta.
  destruct (apply_items_lookup (_settings st) result) as [Hlookup Hchanged].
  cbv zeta in Hlookup, Hchanged. rewrite Hchanged, (Hlookup "adapters").
  destruct (result !! "adapters") as [adapters|]; [|done].
  destruct (differs_from_stored (_settings st) "adapters" adapters); [|done].
  rewrite addAdapters_closed_form. unfold fresh_ports.
  by destruct (as_int adapters).
Qed.

End Callbacks.

(** ** Port names and the port list *)

Section Ports.

Context {formatter : PortNameFormat}.

(** The ports of [name_ports] carry the closed-form names of the
    adapters they were made for, in order. *)
Lemma name_ports_names (fmt : string) (size : Z) (first : option string) (ks : list Z) :
  let named := name_ports fmt size first ks in
  map (fun port => Ok (port_name port)) (fst named)
  = map (port_name_of fmt size first) (take (length (fst named)) ks).
Proof.
  induction ks as [|k ks IH]; simpl; [done|].
  destruct (port_name_of fmt size first k) as [name|e] eqn:Hname; simpl; [|done].
  by rewrite Hname, IH.
Qed.




(** [_addAdapters] returns normally when the count is an integer and
    the format accepts the counters of every adapter. *)
Lemma addAdapters_succeeds (adapters : pyval) (n : Z) (st : Node) :
  as_int adapters = Some n ->
  Forall (fun k => exists name,
            port_name_of (_port_name_format st) (_port_segment_size st)
                         (_first_port_name st) k = Ok name)
         (py_range n) ->
  fst (_addAdapters adapters st) = Ok tt.
Proof.
  intros Hint Hnames. rewrite addAdapters_closed_form, Hint. cbv zeta.
  cbn [fst]. induction Hnames as [|k ks [name Hname] _ IH]; simpl; [done|].
  by rewrite Hname.
Qed.

(** C2 (as amended): for every adapter count, [_addAdapters] appends
    the ports of the closed-form naming scheme.  Adapter 0 takes the
    first port name when one is set (a non-empty string) and then does
    not advance the counters; every other adapter is named by the format
    string at the interface and segment numbers that the count [j] of
    names formatted before it gives: [(j, 0)] when the segment size is
    0, and [(j mod |size|, j / |size|)] otherwise, so that the interface
    number increments once per formatted name and returns to 0 each time
    the segment number increments.  The loop stops at the first name the
    format refuses, with the ports made so far. *)
Theorem port_names_follow_scheme (n : Z) (st : Node) :
  let fmt := _port_name_format st in
  let size := _port_segment_size st in
  let first := _first_port_name st in
  let named := name_ports fmt size first (py_range n) in
  _addAdapters (PInt n) st = (snd named, set_ports (_ports st ++ fst named) st)
  /\ map (fun port => Ok (port_name port)) (fst named)
     = map (fun k =>
              if name_is_set first && (k =? 0) then Ok (default "" first)
              else let j := if name_is_set first then k - 1 else k in
                   if size =? 0 then str_format fmt j 0
                   else str_format fmt (j mod Z.abs size) (j / Z.abs size))
           (take (length (fst named)) (py_range n)).
Proof.
  cbv zeta. split; [by rewrite addAdapters_closed_form|].
  rewrite name_ports_names. cbv zeta.
  apply map_ext_in. intros k Hk.
  assert (0 <= k) as Hnonneg.
  { apply list_elem_of_In, elem_of_take in Hk as (i & Hk & _).
    unfold py_range in Hk. rewrite list_lookup_fmap in Hk.
    destruct (seq 0 (Z.to_nat n) !! i); simpl in Hk; [|done]. injection Hk. lia. }
  unfold port_name_of, formatted_before, interface_of, segment_of.
  destruct (name_is_set (_first_port_name st)); simpl.
  - destruct (Z.eqb_spec k 0) as [->|Hk0]; [done|].
    destruct (Z.ltb_spec 0 k); [|lia].
    by destruct (_port_segment_size st =? 0).
  - by destruct (_port_segment_size st =? 0).
Qed.


End Ports.

(** ** The constructor *)

Lemma table_keys_present (table : gmap string pyval) :
  Forall (fun key => is_Some (table !! key)) table_keys ->
  exists adapters use_any_adapter adapter_type ram headless acpi_shutdown
         enable_remote_console,
    table !! "adapters" = Some adapters
    /\ table !! "use_any_adapter" = Some use_any_adapter
    /\ table !! "adapter_type" = Some adapter_type
    /\ table !! "ram" = Some ram
    /\ table !! "headless" = Some headless
    /\ table !! "acpi_shutdown" = Some acpi_shutdown
    /\ table !! "enable_remote_console" = Some enable_remote_console.
Proof.
  unfold table_keys. rewrite !Forall_cons.
  intros ([v1 H1] & [v2 H2] & [v3 H3] & [v4 H4] & [v5 H5] & [v6 H6] & [v7 H7] & _).
  by exists v1, v2, v3, v4, v5, v6, v7.
Qed.

Local Ltac stored_key :=
  rewrite ?lookup_insert_ne by done;
  rewrite lookup_insert_eq, union_Some_l;
  repeat (rewrite bool_decide_eq_false_2 by done);
  rewrite bool_decide_eq_true_2
    by first [done | rewrite !elem_of_cons; intuition congruence];
  repeat match goal with H : _ !! _ = Some _ |- _ => rewrite H end.

(** C6 (as amended): when the settings table has the entries the
    constructor reads, the constructor succeeds and the settings record
    holds "vmname" with the empty string, "console" and "console_host"
    with [None], and "adapters", "use_any_adapter", "adapter_type",
    "ram", "headless", "acpi_shutdown" and "enable_remote_console" with
    the values of the table; every other key is as the base class left
    it.  The linked-clone flag is not one of these keys: it is the
    attribute [_linked_clone], which starts as [False]. *)
Theorem constructor_settings (table : gmap string pyval) (st : Node) :
  Forall (fun key => is_Some (table !! key)) table_keys ->
  let built := __init__ table st in
  fst built = Ok tt
  /\ (forall key,
        _settings (snd built) !! key =
          match constructed_default table key with
          | Some value => Some value
          | None => _settings st !! key
          end)
  /\ _settings (snd built) !! "linked_clone" = _settings st !! "linked_clone"
  /\ _linked_clone (snd built) = false.
Proof.
  intros Htable.
  destruct (table_keys_present table Htable)
    as (v1 & v2 & v3 & v4 & v5 & v6 & v7 & H1 & H2 & H3 & H4 & H5 & H6 & H7).
  assert (forall key,
            _settings (snd (__init__ table st)) !! key =
              match constructed_default table key with
              | Some value => Some value
              | None => _settings st !! key
              end) as Hkeys.
  { intros key. unfold __init__, bind, modify, lift, subscript. simpl.
    rewrite H1, H2, H3, H4, H5, H6, H7. simpl.
    rewrite lookup_union. unfold constructed_default, table_keys.
    destruct (decide (key = "vmname")) as [->|?]; [by stored_key|].
    destruct (decide (key = "console")) as [->|?]; [by stored_key|].
    destruct (decide (key = "console_host")) as [->|?]; [by stored_key|].
    destruct (decide (key = "adapters")) as [->|?]; [by stored_key|].
    destruct (decide (key = "use_any_adapter")) as [->|?]; [by stored_key|].
    destruct (decide (key = "adapter_type")) as [->|?]; [by stored_key|].
    destruct (decide (key = "ram")) as [->|?]; [by stored_key|].
    destruct (decide (key = "headless")) as [->|?]; [by stored_key|].
    destruct (decide (key = "acpi_shutdown")) as [->|?]; [by stored_key|].
    destruct (decide (key = "enable_remote_console")) as [->|?]; [by stored_key|].
    rewrite !lookup_insert_ne, lookup_empty, (left_id_L None _) by done.
    repeat (rewrite bool_decide_eq_false_2
              by first [done | rewrite !elem_of_cons, elem_of_nil; intuition congruence]).
    done. }
  cbv zeta. repeat split.
  - unfold __init__, bind, modify, lift, subscript. simpl.
    by rewrite H1, H2, H3, H4, H5, H6, H7.
  - done.
  - by rewrite Hkeys.
  - unfold __init__, bind, modify, lift, subscript. simpl.
    by rewrite H1, H2, H3, H4, H5, H6, H7.
Qed.

(** ** The examples *)

Lemma example_table_keys :
  Forall (fun key => is_Some (example_table !! key)) table_keys.
Proof.
  unfold table_keys.
  repeat (apply List.Forall_cons; [eexists; reflexivity|]).
  apply List.Forall_nil.
Qed.

(** The constructor over [example_table]: the adapter count of the
    table is stored, no linked-clone key is. *)
Lemma constructor_settings_witness :
  fst (__init__ example_table example_base) = Ok tt
  /\ _settings (snd (__init__ example_table example_base)) !! "adapters"
     = Some (PInt 1)
  /\ _settings (snd (__init__ example_table example_base)) !! "linked_clone" = None
  /\ _linked_clone (snd (__init__ example_table example_base)) = false.
Proof.
  destruct (constructor_settings example_table example_base example_table_keys)
    as (Hok & Hkeys & Hlinked & Hflag).
  split; [exact Hok|].
  split; [rewrite Hkeys; reflexivity|].
  split; [rewrite Hlinked; reflexivity|exact Hflag].
Defined.

(** The settings record the specification words is not the one the
    constructor builds: the table has a "linked_clone" entry, the
    constructed settings have none. *)
Lemma settings_lack_linked_clone :
  ~ settings_as_specified example_table (snd (__init__ example_table example_base)).
Proof.
  unfold settings_as_specified. rewrite Forall_forall.
  intros Hall. destruct (Hall "linked_clone") as [[value Hvalue] _].
  - unfold spec_key_set. rewrite !elem_of_cons. tauto.
  - vm_compute in Hvalue. discriminate Hvalue.
Qed.

(** Three adapters in segments of two: the third port is the first of
    the second segment. *)
Example segmented_names :
  map port_name
      (_ports (snd (@_addAdapters format_fragment (PInt 3) example_segmented)))
  = ["Ethernet0/0"; "Ethernet0/1"; "Ethernet1/0"].
Proof. reflexivity. Qed.

(** An index that only increments names the third port "Ethernet1/2",
    which is not the name the code gives it. *)
Lemma spec_names_differ_from_code :
  map (fun port => Ok (port_name port))
      (_ports (snd (@_addAdapters format_fragment (PInt 3) example_segmented)))
  <> map (@spec_port_name format_fragment "Ethernet{segment0}/{port0}" 2 None)
         (py_range 3).
Proof. vm_compute. intros Hsame. discriminate Hsame. Qed.

(** A first port name of its own: the second adapter is the first to be
    formatted. *)
Example first_port_names :
  map port_name
      (_ports (snd (@_addAdapters format_fragment (PInt 4)
                      (set_first_port_name (Some "Management0") example_segmented))))
  = ["Management0"; "Ethernet0/0"; "Ethernet0/1"; "Ethernet1/0"].
Proof. reflexivity. Qed.



(** * Further properties of the methods *)

(** ** What [_addAdapters] does to the node *)

Section Adapters.

Context {formatter : PortNameFormat}.

(** Every port of [name_ports] is the port of the adapter at its place. *)
Lemma name_ports_lookup (fmt : string) (size : Z) (first : option string)
      (ks : list Z) (i : nat) (port : Port) :
  fst (name_ports fmt size first ks) !! i = Some port ->
  exists k, ks !! i = Some k /\ port = adapter_port (port_name port) k.
Proof.
  revert i. induction ks as [|k ks IH]; intros i; simpl; [done|].
  destruct (port_name_of fmt size first k) as [name|e]; simpl; [|done].
  destruct i as [|i]; simpl.
  - intros [= <-]. by exists k.
  - apply IH.
Qed.

Lemma py_range_lookup (n : Z) (i : nat) (k : Z) :
  py_range n !! i = Some k -> k = Z.of_nat i.
Proof.
  unfold py_range. rewrite list_lookup_fmap.
  destruct (seq 0 (Z.to_nat n) !! i) as [j|] eqn:Hj; simpl; [|done].
  apply lookup_seq in Hj as [-> _]. by intros [= <-].
Qed.

(** Two naming configurations that name every adapter alike make the
    same ports. *)
Lemma name_ports_ext (format format' : PortNameFormat)
      (fmt fmt' : string) (size size' : Z) (first first' : option string)
      (ks : list Z) :
  Forall (fun k => @port_name_of format fmt size first k
                   = @port_name_of format' fmt' size' first' k) ks ->
  @name_ports format fmt size first ks = @name_ports format' fmt' size' first' ks.
Proof.
  induction 1 as [|k ks Hk _ IH]; simpl; [done|]. by rewrite Hk, IH.
Qed.

Lemma py_range_nonneg (n : Z) : Forall (fun k => 0 <= k) (py_range n).
Proof.
  apply Forall_forall. intros k Hk.
  apply list_elem_of_lookup in Hk as [i Hi].
  apply py_range_lookup in Hi. lia.
Qed.

(** X1: [_addAdapters] only appends to the port list, whether it returns or
    raises: the ports the node had stay in place, every other attribute
    of the node is untouched, and the port added at place [i] carries
    the adapter number [i], the port number 0 and no link. *)
Theorem addAdapters_appends_only (adapters : pyval) (st : Node) :
  exists added,
    snd (_addAdapters adapters st) = set_ports (_ports st ++ added) st
    /\ forall i port,
         added !! i = Some port ->
         port_adapter_number port = Some (Z.of_nat i)
         /\ port_port_number port = Some 0
         /\ port_isFree port = true.
Proof.
  rewrite addAdapters_closed_form. destruct (as_int adapters) as [n|].
  - eexists. split; [reflexivity|]. intros i port Hport.
    apply name_ports_lookup in Hport as (k & Hk & ->).
    apply py_range_lookup in Hk as ->. done.
  - exists []. split; [by rewrite app_nil_r, set_ports_same|done].
Qed.

(** X2: A count that is zero or negative adds no adapter: [_addAdapters]
    returns and leaves the node as it was.  (A value that is no integer
    raises [TypeError], the node untouched as well.) *)
Theorem addAdapters_without_adapters (adapters : pyval) (st : Node) :
  (forall n, as_int adapters = Some n -> n <= 0) ->
  _addAdapters adapters st
  = (match as_int adapters with Some _ => Ok tt | None => Raise TypeError end, st).
Proof.
  intros Hcount. rewrite addAdapters_closed_form.
  destruct (as_int adapters) as [n|]; [|done].
  specialize (Hcount n eq_refl).
  unfold py_range. replace (Z.to_nat n) with 0%nat by lia.
  simpl. by rewrite app_nil_r, set_ports_same.
Qed.

(** X3: The create callback does not clear the port list: run a second
    time, it appends the same ports once more. *)
Theorem createCallback_twice_duplicates (answer answer' : gmap string pyval) (st : Node) :
  let fresh := fresh_ports st (default (PInt 0) (_settings st !! "adapters")) in
  _ports (snd (_createCallback answer' (snd (_createCallback answer st))))
  = _ports st ++ fresh ++ fresh.
Proof.
  cbv zeta. unfold _createCallback, bind, get. cbn -[_addAdapters].
  rewrite !addAdapters_settings.
  rewrite (addAdapters_closed_form _ (snd _)), addAdapters_closed_form.
  unfold fresh_ports.
  destruct (as_int (default (PInt 0) (_settings st !! "adapters"))) as [n|]; simpl.
  - by rewrite app_assoc.
  - by rewrite app_nil_r.
Qed.

(** X4: An empty first port name is no first port name: [create]'s default
    [""] names the ports as the constructor's [None] does. *)
Theorem empty_first_port_name_is_none (adapters : pyval) (st : Node) :
  let empty := _addAdapters adapters (set_first_port_name (Some "") st) in
  let none := _addAdapters adapters (set_first_port_name None st) in
  fst empty = fst none /\ _ports (snd empty) = _ports (snd none).
Proof.
  cbv zeta. rewrite !addAdapters_closed_form.
  destruct (as_int adapters) as [n|]; [|done]. cbv zeta. simpl.
  by rewrite (name_ports_ext formatter formatter
                (_port_name_format st) (_port_name_format st)
                (_port_segment_size st) (_port_segment_size st) (Some "") None)
    by (by apply Forall_forall).
Qed.

(** X5: Only the magnitude of the segment size counts: a negative size
    names the ports as its absolute value does. *)
Theorem negative_segment_size_is_absolute (adapters : pyval) (size : Z) (st : Node) :
  let negative := _addAdapters adapters (set_port_segment_size (- size) st) in
  let positive := _addAdapters adapters (set_port_segment_size size st) in
  fst negative = fst positive /\ _ports (snd negative) = _ports (snd positive).
Proof.
  cbv zeta. rewrite !addAdapters_closed_form.
  destruct (as_int adapters) as [n|]; [|done]. cbv zeta. simpl.
  rewrite (name_ports_ext formatter formatter
             (_port_name_format st) (_port_name_format st)
             (- size) size (_first_port_name st) (_first_port_name st)); [done|].
  apply Forall_forall. intros k _.
  unfold port_name_of, interface_of, segment_of.
  rewrite Z.abs_opp. replace (- size =? 0) with (size =? 0); [done|].
  destruct (Z.eqb_spec size 0), (Z.eqb_spec (- size) 0); lia.
Qed.

(** X6: The counters [_addAdapters] gives to [format] are never negative,
    and with a segment size the interface number is below its
    magnitude: a formatter that refuses every other pair of counters
    makes no difference. *)
Theorem addAdapters_counters_in_range (adapters : pyval) (st : Node) :
  @_addAdapters (guarded_format formatter (_port_segment_size st)) adapters st
  = @_addAdapters formatter adapters st.
Proof.
  rewrite !addAdapters_closed_form.
  destruct (as_int adapters) as [n|]; [|done]. cbv zeta.
  rewrite (name_ports_ext (guarded_format formatter (_port_segment_size st)) formatter
             (_port_name_format st) (_port_name_format st)
             (_port_segment_size st) (_port_segment_size st)
             (_first_port_name st) (_first_port_name st)); [done|].
  eapply Forall_impl; [apply py_range_nonneg|]. intros k Hk. simpl in Hk |- *.
  unfold port_name_of. destruct (name_is_set _ && _); [done|].
  unfold str_format at 1, guarded_format.
  set (j := formatted_before (_first_port_name st) k).
  assert (0 <= j) as Hj.
  { subst j. unfold formatted_before.
    destruct (name_is_set _ && _) eqn:Hfirst; [|lia].
    apply andb_true_iff in Hfirst as [_ Hpos]. apply Z.ltb_lt in Hpos. lia. }
  unfold interface_of, segment_of.
  destruct (Z.eqb_spec (_port_segment_size st) 0) as [Hzero|Hsize]; simpl.
  - destruct (Z.leb_spec 0 j); [done|lia].
  - assert (0 < Z.abs (_port_segment_size st)) as Hpos by lia.
    pose proof (Z.mod_pos_bound j _ Hpos) as Hmod.
    pose proof (Z.div_pos j _ Hj Hpos) as Hdiv.
    destruct (Z.leb_spec 0 (j mod Z.abs (_port_segment_size st))); [|lia].
    destruct (Z.leb_spec 0 (j / Z.abs (_port_segment_size st))); [|lia].
    destruct (Z.ltb_spec (j mod Z.abs (_port_segment_size st))
                         (Z.abs (_port_segment_size st))); [done|lia].
Qed.

(** X7: The ports of a create cycle are named by the configuration given to
    [create], whatever the node's naming configuration was before. *)
Theorem create_cycle_uses_given_naming
        (vmname : string) (name : option string) (node_id : pyval)
        (port_name_format : string) (port_segment_size : Z)
        (first_port_name : option string) (linked_clone : bool)
        (additional_settings : gmap string pyval)
        (default_name_format : option string)
        (answer : gmap string pyval) (st : Node) :
  _ports (snd (run_cycle
                 (CreateCycle vmname name node_id port_name_format
                              port_segment_size first_port_name linked_clone
                              additional_settings default_name_format answer) st))
  = _ports st ++
    match as_int (default (PInt 0) (_settings st !! "adapters")) with
    | Some n => fst (name_ports port_name_format port_segment_size
                                first_port_name (py_range n))
    | None => []
    end.
Proof.
  unfold run_cycle, bind, create, modify, _createCallback, get.
  cbn -[_addAdapters]. rewrite addAdapters_closed_form. cbn -[name_ports].
  destruct (as_int (default (PInt 0) (_settings st !! "adapters"))); simpl;
    [done|by rewrite app_nil_r].
Qed.

End Adapters.

(** ** Settings, requests and answers *)

Lemma py_eq_refl (v : pyval) : py_eq v v = true.
Proof.
  unfold py_eq. destruct (as_int v); by rewrite bool_decide_eq_true_2.
Qed.

Lemma set_settings_same (st : Node) : set_settings (_settings st) st = st.
Proof. by destruct st. Qed.

Lemma dispatch_changes (r : request) (st : Node) : dispatch r st <> st.
Proof.
  intros Hsame. apply (f_equal (fun node => length (dispatched node))) in Hsame.
  simpl in Hsame. rewrite length_app in Hsame. simpl in Hsame. lia.
Qed.

(** An answer whose items all agree with what is stored changes nothing. *)
Lemma apply_items_settled (settings result : gmap string pyval) :
  (forall key value,
     result !! key = Some value -> differs_from_stored settings key value = false) ->
  map_fold apply_item (settings, false) result = (settings, false).
Proof.
  intros Hsettled.
  destruct (apply_items_lookup settings result) as [Hlookup Hchanged].
  cbv zeta in Hlookup, Hchanged.
  destruct (map_fold apply_item (settings, false) result) as [stored changed].
  simpl in *. f_equal.
  - apply map_eq. intros key. rewrite Hlookup.
    destruct (result !! key) as [value|] eqn:Hvalue; [|done].
    by rewrite (Hsettled key value Hvalue).
  - rewrite Hchanged. destruct (result !! "adapters") as [value|] eqn:Hvalue; [|done].
    by apply Hsettled.
Qed.

Section Answers.

Context {formatter : PortNameFormat}.

(** The settings after the update callback agree with the answer. *)
Lemma updateCallback_settled (result : gmap string pyval) (st : Node)
      (key : string) (value : pyval) :
  result !! key = Some value ->
  differs_from_stored (_settings (snd (_updateCallback result st))) key value = false.
Proof.
  intros Hvalue. rewrite updateCallback_settings.
  destruct (apply_items_lookup (_settings st) result) as [Hlookup _].
  cbv zeta in Hlookup. unfold differs_from_stored at 1.
  rewrite Hlookup, Hvalue.
  destruct (differs_from_stored (_settings st) key value) eqn:Hdiffers.
  - unfold py_ne. by rewrite py_eq_refl.
  - done.
Qed.

(** X8: The update callback is idempotent: the same answer applied a second
    time returns normally and changes nothing, ports included, even when
    the first application raised while rebuilding the ports. *)
Theorem updateCallback_idempotent (result : gmap string pyval) (st : Node) :
  _updateCallback result (snd (_updateCallback result st))
  = (Ok tt, snd (_updateCallback result st)).
Proof.
  rewrite (updateCallback_unfold result (snd _)). cbv zeta.
  rewrite apply_items_settled by (intros key value; apply updateCallback_settled).
  simpl. by rewrite set_settings_same.
Qed.

(** X9: The update callback mirrors the answer without changing the shape
    of the settings: it neither adds nor removes a key, and every stored
    key the answer mentions ends up with a value equal (Python [==]) to
    the answer's. *)
Theorem updateCallback_mirrors_answer (result : gmap string pyval) (st : Node) :
  dom (_settings (snd (_updateCallback result st))) = dom (_settings st)
  /\ forall key value,
       result !! key = Some value ->
       is_Some (_settings st !! key) ->
       exists stored,
         _settings (snd (_updateCallback result st)) !! key = Some stored
         /\ py_eq stored value = true.
Proof.
  rewrite updateCallback_settings.
  destruct (apply_items_lookup (_settings st) result) as [Hlookup _].
  cbv zeta in Hlookup. split.
  - apply set_eq. intros key. rewrite !elem_of_dom, Hlookup.
    unfold differs_from_stored.
    destruct (result !! key) as [value|]; [|done].
    destruct (_settings st !! key) as [old|] eqn:Hold.
    + destruct (py_ne old value); split; eauto.
    + done.
  - intros key value Hvalue [old Hold]. rewrite Hlookup, Hvalue.
    unfold differs_from_stored. rewrite Hold.
    destruct (py_ne old value) eqn:Hne.
    + exists value. by rewrite py_eq_refl.
    + exists old. split; [done|]. unfold py_ne in Hne. by destruct (py_eq old value).
Qed.

(** [update] and [forced_settings]. *)
Lemma update_unfold (new_settings : gmap string pyval) (st : Node) :
  update new_settings st =
    let forced := forced_settings st new_settings in
    let params := changed_params (_settings st) forced in
    (Ok forced,
     if bool_decide (params = ∅) then st else dispatch (UpdateRequest params) st).
Proof.
  unfold update, forced_settings, vmname_forced, bind, get, modify, ret. simpl.
  destruct (new_settings !! "name") as [new_name|]; simpl.
  - destruct (py_ne new_name (PStr (node_name st)) && _linked_clone st);
      by case_bool_decide.
  - by case_bool_decide.
Qed.

Lemma changed_params_empty (settings new_settings : gmap string pyval) :
  changed_params settings new_settings = ∅ <->
  forall key value,
    new_settings !! key = Some value -> differs_from_stored settings key value = false.
Proof.
  rewrite changed_params_filter, map_empty_filter. unfold map_Forall. simpl.
  split; intros Hall key value Hvalue; specialize (Hall key value Hvalue).
  - by destruct (differs_from_stored settings key value).
  - by rewrite Hall.
Qed.

(** X10: [update] sends nothing, and leaves the node as it is, exactly when
    every item it is given (once "vmname" is forced) is either unknown
    to the settings or equal (Python [==]) to the stored value. *)
Theorem update_silent_iff_settled (new_settings : gmap string pyval) (st : Node) :
  snd (update new_settings st) = st <->
  forall key value old,
    forced_settings st new_settings !! key = Some value ->
    _settings st !! key = Some old ->
    py_eq old value = true.
Proof.
  rewrite update_unfold. cbv zeta. simpl. case_bool_decide as Hparams.
  - split; [intros _|done]. intros key value old Hvalue Hold.
    pose proof (proj1 (changed_params_empty _ _) Hparams key value Hvalue) as Hsame.
    unfold differs_from_stored, py_ne in Hsame. rewrite Hold in Hsame.
    by destruct (py_eq old value).
  - split; [intros Hsame; by apply dispatch_changes in Hsame|].
    intros Hsettled. destruct Hparams. apply changed_params_empty.
    intros key value Hvalue. unfold differs_from_stored, py_ne.
    destruct (_settings st !! key) as [old|] eqn:Hold; [|done].
    by rewrite (Hsettled key value old Hvalue Hold).
Qed.

(** X11: Once the server has answered with the parameters [update] sent, the
    same [update] finds nothing left to send. *)
Theorem update_settled_after_answer (new_settings : gmap string pyval) (st : Node) :
  let sent := changed_params (_settings st) (forced_settings st new_settings) in
  let answered := snd (_updateCallback sent (snd (update new_settings st))) in
  update new_settings answered = (Ok (forced_settings st new_settings), answered).
Proof.
  cbv zeta.
  set (sent := changed_params (_settings st) (forced_settings st new_settings)).
  set (requested := snd (update new_settings st)).
  set (answered := snd (_updateCallback sent requested)).
  assert (_settings requested = _settings st
          /\ node_name requested = node_name st
          /\ _linked_clone requested = _linked_clone st) as (Hs & Hn & Hl).
  { subst requested. rewrite update_unfold. cbv zeta. simpl.
    by case_bool_decide. }
  assert (node_name answered = node_name st
          /\ _linked_clone answered = _linked_clone st) as [Hname Hlinked].
  { subst answered. rewrite updateCallback_unfold. cbv zeta.
    destruct (snd (map_fold apply_item _ _)); [|done].
    destruct (_ !! "adapters") as [adapters|]; [|done].
    destruct (addAdapters_appends_only adapters
                (set_ports [] (set_settings
                   (fst (map_fold apply_item (_settings requested, false) sent))
                   requested))) as (added & -> & _).
    done. }
  assert (forced_settings answered new_settings = forced_settings st new_settings)
    as Hforced.
  { unfold forced_settings, vmname_forced. by rewrite Hname, Hlinked. }
  rewrite update_unfold. cbv zeta. rewrite Hforced.
  rewrite bool_decide_eq_true_2; [done|].
  apply changed_params_empty. intros key value Hvalue.
  destruct (differs_from_stored (_settings st) key value) eqn:Hdiffers.
  - apply (updateCallback_settled sent requested).
    subst sent. rewrite changed_params_filter. apply map_lookup_filter_Some.
    by split.
  - subst answered. rewrite updateCallback_settings.
    destruct (apply_items_lookup (_settings requested) sent) as [Hlookup _].
    cbv zeta in Hlookup. unfold differs_from_stored at 1. rewrite Hlookup.
    assert (sent !! key = None) as ->.
    { subst sent. rewrite changed_params_filter. apply map_lookup_filter_None.
      right. intros value' Hvalue'. simpl. congruence. }
    by rewrite Hs.
Qed.

End Answers.

(** X12: Renaming a linked clone renames the VirtualBox VM: when the node is
    a linked clone and [new_settings] has a new "name", [update] sends
    one request that carries the new name as "vmname", whatever "vmname"
    the caller had put in [new_settings], and the caller's dictionary
    holds the new name under "vmname" afterwards. *)
Theorem update_renames_linked_clone
        (new_settings : gmap string pyval) (st : Node) (new_name stored : pyval) :
  _linked_clone st = true ->
  new_settings !! "name" = Some new_name ->
  py_ne new_name (PStr (node_name st)) = true ->
  _settings st !! "vmname" = Some stored ->
  py_ne stored new_name = true ->
  exists params written,
    update new_settings st
    = (Ok written, dispatch (UpdateRequest params) st)
    /\ params !! "vmname" = Some new_name
    /\ written !! "vmname" = Some new_name.
Proof.
  intros Hlinked Hname Hnew Hstored Hdiffers.
  assert (forced_settings st new_settings = <["vmname" := new_name]> new_settings)
    as Hforced.
  { unfold forced_settings, vmname_forced. by rewrite Hname, Hnew, Hlinked. }
  assert (changed_params (_settings st) (forced_settings st new_settings) !! "vmname"
          = Some new_name) as Hsent.
  { rewrite changed_params_filter. apply map_lookup_filter_Some. split.
    - by rewrite Hforced, lookup_insert_eq.
    - unfold differs_from_stored. simpl. by rewrite Hstored. }
  exists (changed_params (_settings st) (forced_settings st new_settings)),
         (forced_settings st new_settings).
  split; [|split; [done|by rewrite Hforced, lookup_insert_eq]].
  rewrite update_unfold. cbv zeta. rewrite bool_decide_eq_false_2; [done|].
  intros Hempty. by rewrite Hempty, lookup_empty in Hsent.
Qed.

(** ** The constructor and the readers *)

Lemma constructor_unfold (table : gmap string pyval) (st : Node)
      (v1 v2 v3 v4 v5 v6 v7 : pyval) :
  table !! "adapters" = Some v1 ->
  table !! "use_any_adapter" = Some v2 ->
  table !! "adapter_type" = Some v3 ->
  table !! "ram" = Some v4 ->
  table !! "headless" = Some v5 ->
  table !! "acpi_shutdown" = Some v6 ->
  table !! "enable_remote_console" = Some v7 ->
  __init__ table st =
    (Ok tt,
     set_settings
       (list_to_map [("vmname", PStr ""); ("console", PNone); ("console_host", PNone);
                     ("adapters", v1); ("use_any_adapter", v2); ("adapter_type", v3);
                     ("ram", v4); ("headless", v5); ("acpi_shutdown", v6);
                     ("enable_remote_console", v7)] ∪ _settings st)
       (set_first_port_name None
          (set_port_segment_size 0
             (set_port_name_format "Ethernet{0}" (set_linked_clone false st))))).
Proof.
  intros H1 H2 H3 H4 H5 H6 H7.
  unfold __init__, bind, modify, lift, subscript. simpl.
  by rewrite H1, H2, H3, H4, H5, H6, H7.
Qed.

(** X13: When the settings table lacks one of the entries the constructor
    reads, the constructor raises [KeyError]: the settings and the ports
    are as the base class left them, while the linked-clone flag and the
    naming configuration have been reset already. *)
Theorem constructor_missing_table_entry (table : gmap string pyval) (st : Node) :
  Exists (fun key => table !! key = None) table_keys ->
  let built := __init__ table st in
  fst built = Raise KeyError
  /\ _settings (snd built) = _settings st
  /\ _ports (snd built) = _ports st
  /\ _linked_clone (snd built) = false
  /\ _port_name_format (snd built) = "Ethernet{0}"
  /\ _port_segment_size (snd built) = 0
  /\ _first_port_name (snd built) = None.
Proof.
  unfold table_keys. rewrite !Exists_cons, Exists_nil. intros Hmissing.
  cbv zeta. unfold __init__, bind, modify, lift, subscript. simpl.
  destruct (table !! "adapters"); simpl; [|done].
  destruct (table !! "use_any_adapter"); simpl; [|done].
  destruct (table !! "adapter_type"); simpl; [|done].
  destruct (table !! "ram"); simpl; [|done].
  destruct (table !! "headless"); simpl; [|done].
  destruct (table !! "acpi_shutdown"); simpl; [|done].
  destruct (table !! "enable_remote_console"); simpl; [|done].
  exfalso. intuition discriminate.
Qed.

Local Ltac constructed_lookup :=
  rewrite lookup_union;
  rewrite ?lookup_insert_ne by done;
  rewrite lookup_insert_eq, union_Some_l.

(** X14: A constructed node answers its readers: [console()] returns [None],
    [serialConsole()] returns the negation of the table's
    "enable_remote_console", [info()] returns a text, and none of them
    changes the node. *)
Theorem constructed_node_answers (table : gmap string pyval) (st : Node) :
  Forall (fun key => is_Some (table !! key)) table_keys ->
  let built := snd (__init__ table st) in
  console built = (Ok PNone, built)
  /\ (exists remote,
        table !! "enable_remote_console" = Some remote
        /\ serialConsole built = (Ok (negb (truthy remote)), built))
  /\ exists text, info built = (Ok text, built).
Proof.
  intros Htable.
  destruct (table_keys_present table Htable)
    as (v1 & v2 & v3 & v4 & v5 & v6 & v7 & H1 & H2 & H3 & H4 & H5 & H6 & H7).
  cbv zeta. rewrite (constructor_unfold table st v1 v2 v3 v4 v5 v6 v7) by done.
  set (built := snd _).
  assert (_settings built !! "console" = Some PNone) as Hconsole
    by (subst built; simpl; by constructed_lookup).
  assert (_settings built !! "vmname" = Some (PStr "")) as Hvmname
    by (subst built; simpl; by constructed_lookup).
  assert (_settings built !! "ram" = Some v4) as Hram
    by (subst built; simpl; by constructed_lookup).
  assert (_settings built !! "enable_remote_console" = Some v7) as Hremote
    by (subst built; simpl; by constructed_lookup).
  split; [|split].
  - unfold console, bind, get, lift, subscript. by rewrite Hconsole.
  - exists v7. split; [done|].
    unfold serialConsole, bind, get, lift, subscript, ret. rewrite Hremote.
    by destruct (truthy v7).
  - eexists. unfold info, bind, get, lift, subscript, ret.
    rewrite Hvmname, Hram, Hconsole. reflexivity.
Qed.

(** X15: [info()] never changes the node; it returns a text exactly when the
    settings hold "vmname", "ram" and "console", and raises [KeyError]
    exactly when one of them is missing. *)
Theorem info_reads_only (st : Node) :
  let present :=
    is_Some (_settings st !! "vmname") /\ is_Some (_settings st !! "ram")
    /\ is_Some (_settings st !! "console") in
  snd (info st) = st
  /\ ((exists text, fst (info st) = Ok text) <-> present)
  /\ (fst (info st) = Raise KeyError <-> ~ present).
Proof.
  cbv zeta. unfold info, bind, get, lift, subscript, ret. simpl.
  destruct (_settings st !! "vmname") as [vmname|]; simpl.
  - destruct (_settings st !! "ram") as [ram|]; simpl.
    + destruct (_settings st !! "console") as [console|]; simpl.
      * split; [done|]. split; split; eauto.
        -- done.
        -- intros Hmissing. destruct Hmissing. eauto.
      * split; [done|]. split; split; try done.
        -- by intros [? ?].
        -- by intros (_ & _ & [? ?]).
        -- by intros _ (_ & _ & [? ?]).
    + split; [done|]. split; split; try done.
      * by intros [? ?].
      * by intros (_ & [? ?] & _).
      * by intros _ (_ & [? ?] & _).
  - split; [done|]. split; split; try done.
    + by intros [? ?].
    + by intros ([? ?] & _).
    + by intros _ ([? ?] & _).
Qed.

(** ** Further examples *)

(** A negative adapter count on the running node. *)
Lemma addAdapters_without_adapters_witness :
  @_addAdapters format_fragment (PInt (-2)) example_running
  = (Ok tt, example_running).
Proof.
  apply (@addAdapters_without_adapters format_fragment (PInt (-2)) example_running).
  intros n [= <-]. lia.
Defined.

(** Renaming the linked clone to "web-1", with a stale "vmname" in the
    dictionary given to [update]. *)
Lemma update_renames_linked_clone_witness :
  exists params,
    dispatched
      (snd (update (list_to_map [("name", PStr "web-1"); ("vmname", PStr "stale")])
                   example_clone))
    = [UpdateRequest params]
    /\ params !! "vmname" = Some (PStr "web-1").
Proof.
  destruct (update_renames_linked_clone
              (list_to_map [("name", PStr "web-1"); ("vmname", PStr "stale")])
              example_clone (PStr "web-1") (PStr "debian"))
    as (params & written & Hupdate & Hparams & _);
    [reflexivity..|].
  exists params. split; [|exact Hparams].
  rewrite Hupdate. reflexivity.
Defined.

(** The constructor over an empty settings table. *)
Lemma constructor_missing_table_entry_witness :
  fst (__init__ ∅ example_base) = Raise KeyError
  /\ _settings (snd (__init__ ∅ example_base)) = _settings example_base.
Proof.
  destruct (constructor_missing_table_entry ∅ example_base)
    as (Hraise & Hsettings & _).
  - apply List.Exists_cons_hd. reflexivity.
  - split; [exact Hraise|exact Hsettings].
Defined.

(** The readers on the node constructed over [example_table]. *)
Lemma constructed_node_answers_witness :
  fst (console (snd (__init__ example_table example_base))) = Ok PNone
  /\ fst (serialConsole (snd (__init__ example_table example_base))) = Ok true.
Proof.
  destruct (constructed_node_answers example_table example_base example_table_keys)
    as (Hconsole & (remote & Hremote & Hserial) & _).
  split.
  - rewrite Hconsole. reflexivity.
  - rewrite Hserial. vm_compute in Hremote. injection Hremote as <-. reflexivity.
Defined.
